(** * Financial Data Analysis API (main.py): the response sanitization pass
      and the stock endpoints

    A shallow embedding of [convert_to_native_types], [get_stock_data] and
    [get_stock_analysis] of [main.py], with the Python values they handle. *)

From Stdlib Require Import List String ZArith Bool Lia DecimalString.
From Stdlib Require Import Floats.PrimFloat.
Import ListNotations.

Local Open Scope string_scope.
Local Open Scope list_scope.

(** ** Python values

    The values that reach the sanitization pass are the ones a pandas/numpy
    analysis produces: Python scalars, numpy scalars and containers.  A
    floating value is carried as the binary64 number it denotes: numpy's
    [float16] and [float32] widen into binary64 without rounding, so
    [float(obj)] keeps the carried number.  numpy's platform-dependent
    extended type [longdouble] is outside this model, and so is Python's
    limit on the depth of recursion.  The keys of a dict are strings, as in
    [Dict[str, Any]]. *)

Inductive np_floating := float16 | float32 | float64.

Inductive np_integer :=
  int8 | int16 | int32 | int64 | uint8 | uint16 | uint32 | uint64.

#[local] Unset Elimination Schemes.

Inductive pyval :=
| PNone
| PBool (b : bool)                        (* bool, a subclass of int *)
| PInt (n : Z)                            (* int *)
| PFloat (x : float)                      (* float *)
| PStr (s : string)                       (* str *)
| NpFloating (k : np_floating) (x : float)  (* a numpy floating scalar *)
| NpInteger (k : np_integer) (n : Z)      (* a numpy integer scalar *)
| NpBool (b : bool)                       (* np.bool_ *)
| PTuple (items : list pyval)             (* tuple *)
| PList (items : list pyval)              (* list *)
| PDict (items : list (string * pyval)).  (* dict, items in insertion order *)

#[local] Set Elimination Schemes.

(** ** dict construction

    A dict keeps its items in insertion order; storing under a key that is
    already present replaces the value and keeps the key's position. *)

Fixpoint dict_set (d : list (string * pyval)) (k : string) (v : pyval)
  : list (string * pyval) :=
  match d with
  | [] => [(k, v)]
  | (k', v') :: d' =>
      if String.eqb k k' then (k', v) :: d' else (k', v') :: dict_set d' k v
  end.

Fixpoint dict_get (d : list (string * pyval)) (k : string) : option pyval :=
  match d with
  | [] => None
  | (k', v') :: d' => if String.eqb k k' then Some v' else dict_get d' k
  end.

(** [{k: v for k, v in items}]: the items are stored one after the other. *)
Definition dict_of_items (items : list (string * pyval))
  : list (string * pyval) :=
  fold_left (fun d kv => dict_set d (fst kv) (snd kv)) items [].

Definition keys (d : list (string * pyval)) : list string := map fst d.

(** ** The tests and conversions of [convert_to_native_types] *)

(** [isinstance(obj, (np.floating, float))] *)
Definition isinstance_floating (obj : pyval) : bool :=
  match obj with
  | PFloat _ | NpFloating _ _ => true
  | _ => false
  end.

(** [isinstance(obj, (np.integer, int))]; [bool] is a subclass of [int],
    [np.bool_] is not a numpy integer. *)
Definition isinstance_integer (obj : pyval) : bool :=
  match obj with
  | PInt _ | PBool _ | NpInteger _ _ => true
  | _ => false
  end.

(** [isinstance(obj, np.bool_)] *)
Definition isinstance_np_bool (obj : pyval) : bool :=
  match obj with
  | NpBool _ => true
  | _ => false
  end.

(** [np.isnan(obj)] and [np.isinf(obj)], called on floating values only. *)
Definition np_isnan (obj : pyval) : bool :=
  match obj with
  | PFloat x | NpFloating _ x => is_nan x
  | _ => false
  end.

Definition np_isinf (obj : pyval) : bool :=
  match obj with
  | PFloat x | NpFloating _ x => is_infinity x
  | _ => false
  end.

(** [float(obj)], [int(obj)] and [bool(obj)] on the values the pass gives
    them. *)
Definition py_float (obj : pyval) : pyval :=
  match obj with
  | PFloat x | NpFloating _ x => PFloat x
  | _ => obj
  end.

Definition py_int (obj : pyval) : pyval :=
  match obj with
  | PInt n | NpInteger _ n => PInt n
  | PBool b => PInt (if b then 1 else 0)
  | _ => obj
  end.

Definition py_bool (obj : pyval) : pyval :=
  match obj with
  | NpBool b => PBool b
  | _ => obj
  end.

(** ** convert_to_native_types (main.py, lines 128-143) *)

Fixpoint convert_to_native_types (obj : pyval) : pyval :=
  match obj with
  | PDict items =>
      PDict (dict_of_items
               (map (fun kv => (fst kv, convert_to_native_types (snd kv)))
                    items))
  | PList items => PList (map convert_to_native_types items)
  | _ =>
      if isinstance_floating obj && (np_isnan obj || np_isinf obj) then PNone
      else if isinstance_floating obj then py_float obj
      else if isinstance_integer obj then py_int obj
      else if isinstance_np_bool obj then py_bool obj
      else obj
  end.


(** ** Trees, positions and the properties of a sanitized tree *)

Fixpoint distinct (l : list string) : bool :=
  match l with
  | [] => true
  | k :: l' => negb (existsb (String.eqb k) l') && distinct l'
  end.

(** Python's dict invariant: no key occurs twice in a dict. *)
Fixpoint well_formed (v : pyval) : bool :=
  match v with
  | PDict items =>
      distinct (keys items) && forallb (fun kv => well_formed (snd kv)) items
  | PList items | PTuple items => forallb well_formed items
  | _ => true
  end.

(** A position in a tree built of dicts and lists: the dict keys and list
    indices on the way down. *)
Inductive step := Key (k : string) | Index (i : nat).

Definition child (s : step) (v : pyval) : option pyval :=
  match s, v with
  | Key k, PDict items => dict_get items k
  | Index i, PList items => nth_error items i
  | _, _ => None
  end.

Fixpoint at_path (p : list step) (v : pyval) : option pyval :=
  match p with
  | [] => Some v
  | s :: p' =>
      match child s v with
      | Some v' => at_path p' v'
      | None => None
      end
  end.

(** The tree has dicts and lists as its only containers. *)
Fixpoint dict_list_tree (v : pyval) : bool :=
  match v with
  | PDict items => forallb (fun kv => dict_list_tree (snd kv)) items
  | PList items => forallb dict_list_tree items
  | PTuple _ => false
  | _ => true
  end.

(** A value is serialization-safe when no NaN, no infinity and no numpy
    scalar occurs in it, however deeply nested and in whichever container. *)
Fixpoint serialization_safe (v : pyval) : bool :=
  match v with
  | PNone | PBool _ | PInt _ | PStr _ => true
  | PFloat x => is_finite x
  | NpFloating _ _ | NpInteger _ _ | NpBool _ => false
  | PTuple items | PList items => forallb serialization_safe items
  | PDict items => forallb (fun kv => serialization_safe (snd kv)) items
  end.

(** No [np.bool_] scalar occurs at a position the pass reaches. *)
Fixpoint no_np_bool (v : pyval) : bool :=
  match v with
  | NpBool _ => false
  | PList items => forallb no_np_bool items
  | PDict items => forallb (fun kv => no_np_bool (snd kv)) items
  | _ => true
  end.

(** The leaves that are neither numbers (floats, integers, booleans and
    their numpy counterparts) nor containers. *)
Definition plain_leaf (v : pyval) : bool :=
  match v with
  | PNone | PStr _ => true
  | _ => false
  end.

(** ** Exceptions and effects

    A handler runs in a state (the outside world the collaborators talk to,
    and the record of the calls made to them) and either returns a value or
    raises. *)

Inductive exn :=
| HTTPException (status_code : Z) (detail : string)
| OtherException (message : string)   (* any other subclass of Exception *)
| BaseOnly (name : string).           (* KeyboardInterrupt, SystemExit, ... *)

(** [HTTPException] derives from [Exception], so [except Exception]
    catches it. *)
Definition is_Exception (e : exn) : bool :=
  match e with
  | HTTPException _ _ | OtherException _ => true
  | BaseOnly _ => false
  end.

Inductive outcome (A : Type) :=
| Returned (a : A)
| Raised (e : exn).

Arguments Returned {A} a.
Arguments Raised {A} e.

Definition and_then {A B} (r : outcome A) (k : A -> outcome B) : outcome B :=
  match r with
  | Returned a => k a
  | Raised e => Raised e
  end.

Inductive call :=
| GetStockData (symbol period : string) (interval : option string)
| GenerateInsights (symbol period : string).

Record state (World : Type) := { world : World; calls : list call }.

Arguments world {World} s.
Arguments calls {World} s.

Definition M (S A : Type) : Type := S -> outcome A * S.

Definition ret {S A} (a : A) : M S A := fun s => (Returned a, s).

Definition raise {S A} (e : exn) : M S A := fun s => (Raised e, s).

Definition bind {S A B} (c : M S A) (k : A -> M S B) : M S B :=
  fun s =>
    match c s with
    | (Returned a, s') => k a s'
    | (Raised e, s') => (Raised e, s')
    end.

Definition lift {S A} (r : outcome A) : M S A := fun s => (r, s).

(** [try: body  except Exception as e: handler(e)] *)
Definition try_except_Exception {S A} (body : M S A) (handler : exn -> M S A)
  : M S A :=
  fun s =>
    match body s with
    | (Returned a, s') => (Returned a, s')
    | (Raised e, s') => if is_Exception e then handler e s' else (Raised e, s')
    end.

Notation "x <- c ;; k" := (bind c (fun x => k))
  (at level 61, c at next level, right associativity).

Record Response := { status : Z; content : pyval }.

(** What FastAPI's JSON step accepts in a returned body.  [json.dumps] is
    called with [allow_nan=False], so a NaN or an infinity is refused
    wherever it sits, inside a tuple too (a tuple is encoded as a list);
    [np.float64] is a [float] and is encoded as one; the other numpy scalars
    have no encoder. *)
Fixpoint json_encodable (v : pyval) : bool :=
  match v with
  | PNone | PBool _ | PInt _ | PStr _ => true
  | PFloat x => is_finite x
  | NpFloating float64 x => is_finite x
  | NpFloating _ _ | NpInteger _ _ | NpBool _ => false
  | PTuple items | PList items => forallb json_encodable items
  | PDict items => forallb (fun kv => json_encodable (snd kv)) items
  end.

(** What FastAPI answers to a handler's outcome: 200 with the returned body
    when the body can be encoded and 500 when it cannot, the status of a
    raised [HTTPException], 500 for any other exception. *)
Definition respond (r : outcome pyval) : Response :=
  match r with
  | Returned body =>
      if json_encodable body
      then {| status := 200; content := body |}
      else {| status := 500; content := PStr "Internal Server Error" |}
  | Raised (HTTPException code detail) =>
      {| status := code; content := PDict [("detail", PStr detail)] |}
  | Raised _ =>
      {| status := 500; content := PStr "Internal Server Error" |}
  end.

Definition client_error (r : Response) : bool :=
  (400 <=? status r)%Z && (status r <? 500)%Z.

Definition server_error (r : Response) : bool :=
  (500 <=? status r)%Z && (status r <? 600)%Z.

Definition successful (r : Response) : bool :=
  (200 <=? status r)%Z && (status r <? 300)%Z.

(** ** The stock endpoints (main.py, lines 31-34 and 74-165) *)

Record StockRequest := {
  symbol : string;
  period : string;      (* default "6mo" *)
  interval : string     (* default "1d" *)
}.

Section Endpoints.

(** The collaborators: the data collector, the analyzer, the clock, the
    pandas operations on the collector's frame and Python's [str(e)]. *)
Context {World DataFrame : Type}.
Variable collector :
  string -> string -> option string -> World ->
  outcome (option DataFrame) * World.
Variable analyzer : string -> string -> World -> outcome pyval * World.
Variable now_isoformat : World -> string.
Variable index_strftime : DataFrame -> string -> outcome DataFrame.
Variable where_notna_else_None : DataFrame -> outcome DataFrame.
Variable reset_index_to_dict_records : DataFrame -> outcome (list pyval).
Variable exc_str : exn -> string.

(** [collector.get_stock_data(symbol=..., period=..., interval=...)]; the
    interval is [None] when the caller leaves it out. *)
Definition collector_get_stock_data (sym per : string) (itv : option string)
  : M (state World) (option DataFrame) :=
  fun s =>
    let (r, w) := collector sym per itv (world s) in
    (r, {| world := w; calls := calls s ++ [GetStockData sym per itv] |}).

(** [analyzer.generate_insights(symbol, period)] *)
Definition analyzer_generate_insights (sym per : string)
  : M (state World) pyval :=
  fun s =>
    let (r, w) := analyzer sym per (world s) in
    (r, {| world := w; calls := calls s ++ [GenerateInsights sym per] |}).

(** [datetime.now().isoformat()] *)
Definition datetime_now_isoformat : M (state World) string :=
  fun s => (Returned (now_isoformat (world s)), s).

(** Lines 88-92 and 121-125: the frame as a list of records.  These are
    pandas operations on a copy of the frame; they touch nothing else. *)
Definition frame_to_records (data : DataFrame) : outcome (list pyval) :=
  and_then (index_strftime data "%Y-%m-%d %H:%M:%S") (fun data_dict =>
  and_then (where_notna_else_None data_dict) (fun data_dict =>
  reset_index_to_dict_records data_dict)).

Definition get_stock_data (request : StockRequest)
  : M (state World) pyval :=
  try_except_Exception
    (data <- collector_get_stock_data
               (symbol request) (period request) (Some (interval request)) ;;
     match data with
     | None =>
         raise (HTTPException 404
                  ("No data found for symbol " ++ symbol request))
     | Some data =>
         data_dict <- lift (frame_to_records data) ;;
         timestamp <- datetime_now_isoformat ;;
         ret (PDict [("symbol", PStr (symbol request));
                     ("timestamp", PStr timestamp);
                     ("data", PList data_dict)])
     end)
    (fun e =>
       raise (HTTPException 500
                ("Error fetching stock data: " ++ exc_str e))).

(** The handler of [get_stock_analysis] also prints the error and the
    traceback to the console before it raises; the console is not part of
    the state. *)
Definition get_stock_analysis (request : StockRequest)
  : M (state World) pyval :=
  try_except_Exception
    (data <- collector_get_stock_data
               (symbol request) (period request) None ;;
     match data with
     | None =>
         raise (HTTPException 404
                  ("No data found for symbol " ++ symbol request))
     | Some data =>
         insights <- analyzer_generate_insights
                       (symbol request) (period request) ;;
         data_dict <- lift (frame_to_records data) ;;
         let data_dict := map convert_to_native_types data_dict in
         let insights := convert_to_native_types insights in
         timestamp <- datetime_now_isoformat ;;
         ret (PDict [("timestamp", PStr timestamp);
                     ("symbol", PStr (symbol request));
                     ("data", PList data_dict);
                     ("insights", insights)])
     end)
    (fun e =>
       raise (HTTPException 500
                ("Error generating analysis: " ++ exc_str e))).

End Endpoints.

(** ** The insight assembler

    [FinancialAnalyzer.generate_insights] is defined in data_analysis.py,
    which is not part of main.py; the endpoints only call it.  What follows
    is the assembler as sections 3, 4.2, 4.3 and 7 of the specification
    describe it. *)

(** Modelled from the spec: the samples that data_analysis.py (missing)
    works on; a Sample (section 3) has its absent fields explicit. *)
Record Sample := {
  sample_timestamp : Z;
  sample_open : option float;
  sample_high : option float;
  sample_low : option float;
  sample_close : option float;
  sample_volume : option Z
}.

(** Modelled from the spec: the series that data_analysis.py (missing)
    works on; a TimeSeries (section 3) holds the samples in ascending order,
    and the empty series is a valid one. *)
Definition TimeSeries := list Sample.

(** Modelled from the spec: the result of an indicator of data_analysis.py
    (missing), with the variants of sections 3 and 9. *)
Inductive IndicatorResult :=
| Value (v : pyval)
| InsufficientData
| Unavailable.

(** Modelled from the spec: an indicator of data_analysis.py (missing);
    it has a name, the minimum sample count it needs and its computation,
    which may fail (section 4.2). *)
Record Indicator := {
  ind_name : string;
  ind_min_samples : nat;
  ind_compute : TimeSeries -> outcome pyval
}.

(** Modelled from the spec: how [generate_insights] of data_analysis.py
    (missing) runs one indicator (sections 3, 4.2, 4.3 and 7).  An empty
    series, or one below the minimum sample count, gives "insufficient
    data"; a failure of the computation is caught and gives
    "unavailable". *)
Definition run_indicator (ind : Indicator) (series : TimeSeries)
  : IndicatorResult :=
  match series with
  | [] => InsufficientData
  | _ :: _ =>
      if (List.length series <? ind_min_samples ind)%nat then InsufficientData
      else
        match ind_compute ind series with
        | Returned v => Value v
        | Raised _ => Unavailable
        end
  end.

(** Modelled from the spec: how [generate_insights] of data_analysis.py
    (missing) writes a result into the bundle (section 7: explicit
    "insufficient/unavailable" markers). *)
Definition marker (r : IndicatorResult) : pyval :=
  match r with
  | Value v => v
  | InsufficientData => PStr "insufficient data"
  | Unavailable => PStr "unavailable"
  end.

(** Modelled from the spec: the indicator entries that [generate_insights]
    of data_analysis.py (missing) builds, one per configured indicator
    (section 4.3). *)
Definition indicator_entries (indicators : list Indicator)
  (series : TimeSeries) : list (string * pyval) :=
  dict_of_items
    (map (fun ind => (ind_name ind, marker (run_indicator ind series)))
         indicators).

(** Modelled from the spec: [generate_insights] of data_analysis.py
    (missing).  It returns the Insight Bundle (section 3): the mapping from
    indicator name to result, plus the symbol and the span it was computed
    over. *)
Definition assemble (sym per : string) (indicators : list Indicator)
  (series : TimeSeries) : pyval :=
  PDict [("symbol", PStr sym);
         ("period", PStr per);
         ("indicators", PDict (indicator_entries indicators series))].

(** ** A small installation, to run the endpoints on

    The world is the clock reading; the collector knows one symbol, whose
    frame is already a list of records, and one symbol with no samples. *)

Definition demo_frame : list pyval :=
  [PDict [("Date", PStr "2024-01-02 00:00:00");
          ("Close", NpFloating float64 185.5%float);
          ("Volume", NpInteger int64 1000)]].

Definition demo_collector (sym per : string) (itv : option string)
  (w : string) : outcome (option (list pyval)) * string :=
  if String.eqb sym "AAPL" then (Returned (Some demo_frame), w)
  else if String.eqb sym "EMPTY" then (Returned (Some []), w)
  else (Returned None, w).

Definition demo_series : TimeSeries :=
  [{| sample_timestamp := 1704153600; sample_open := Some 184%float;
      sample_high := Some 186%float; sample_low := Some 183%float;
      sample_close := Some 185.5%float; sample_volume := Some 1000%Z |}].

Definition demo_last_close : Indicator :=
  {| ind_name := "last_close"; ind_min_samples := 1;
     ind_compute := fun series =>
       match rev series with
       | {| sample_close := Some x |} :: _ => Returned (NpFloating float64 x)
       | _ => Raised (OtherException "no close")
       end |}.

Definition demo_faulty : Indicator :=
  {| ind_name := "rsi"; ind_min_samples := 1;
     ind_compute := fun _ => Raised (OtherException "division by zero") |}.

Definition demo_indicators : list Indicator := [demo_last_close; demo_faulty].

Definition demo_analyzer (sym per : string) (w : string)
  : outcome pyval * string :=
  if String.eqb sym "AAPL"
  then (Returned (assemble sym per demo_indicators demo_series), w)
  else (Returned (assemble sym per demo_indicators []), w).

Definition demo_now (w : string) : string := w.

Definition demo_strftime (data : list pyval) (fmt : string)
  : outcome (list pyval) := Returned data.

Definition demo_where (data : list pyval) : outcome (list pyval) :=
  Returned data.

Definition demo_records (data : list pyval) : outcome (list pyval) :=
  Returned data.

(** [str(e)]: an [HTTPException] prints as its status, a colon and its
    detail; another exception prints as its message. *)
Definition demo_str (e : exn) : string :=
  match e with
  | HTTPException code detail =>
      NilZero.string_of_int (Z.to_int code) ++ ": " ++ detail
  | OtherException message => message
  | BaseOnly _ => ""
  end.

Definition demo_state (clock : string) : state string :=
  {| world := clock; calls := [] |}.

Definition demo_request (sym : string) : StockRequest :=
  {| symbol := sym; period := "6mo"; interval := "1d" |}.

Definition demo_get_stock_data : StockRequest -> M (state string) pyval :=
  get_stock_data demo_collector demo_now demo_strftime demo_where
    demo_records demo_str.

Definition demo_get_stock_analysis : StockRequest -> M (state string) pyval :=
  get_stock_analysis demo_collector demo_analyzer demo_now demo_strftime
    demo_where demo_records demo_str.

(** ** More on the sanitized tree *)

(** A value that is neither a numpy scalar nor a NaN or infinite float. *)
Definition native_finite (v : pyval) : bool :=
  match v with
  | NpFloating _ _ | NpInteger _ _ | NpBool _ => false
  | PFloat x => is_finite x
  | _ => true
  end.

(** A tree the pass has nothing to do on: at the positions it reaches, the
    leaves are None, ints, finite floats and strings (no boolean, no numpy
    scalar); a tuple counts as a leaf. *)
Fixpoint already_native (v : pyval) : bool :=
  match v with
  | PNone | PInt _ | PStr _ | PTuple _ => true
  | PFloat x => is_finite x
  | PBool _ | NpFloating _ _ | NpInteger _ _ | NpBool _ => false
  | PList items => forallb already_native items
  | PDict items => forallb (fun kv => already_native (snd kv)) items
  end.

(** A NaN or infinite floating leaf, as the third test of the pass sees
    it. *)
Definition degenerate_floating (v : pyval) : bool :=
  isinstance_floating v && (np_isnan v || np_isinf v).

(** The outcome of a handler whose body sits in
    [try: ... except Exception as e: raise HTTPException(status_code=500, ...)]:
    it returns, or it raises an [HTTPException] with status 500, or it lets
    through an exception that is not an [Exception]. *)
Definition escapes_as_500 {A : Type} (r : outcome A) : bool :=
  match r with
  | Returned _ => true
  | Raised (HTTPException code _) => (code =? 500)%Z
  | Raised e => negb (is_Exception e)
  end.

(** ** The other endpoints (main.py, lines 37-71 and 168-269) *)

Record QueryRequest := {
  query : string;
  query_symbol : string;    (* symbol *)
  query_period : string     (* period, default "6mo" *)
}.

Record EmailReportRequest := {
  email : string;
  email_symbol : string;    (* symbol *)
  email_period : string;    (* period, default "1d" *)
  report_type : string      (* default "summary" *)
}.

Record ScheduleReportRequest := {
  schedule_email : string;  (* email *)
  schedule_symbol : string; (* symbol *)
  frequency : string;       (* default "daily" *)
  time : string             (* default "16:30" *)
}.

(** The values of the dicts these handlers return: strings, the [datetime]
    object of [datetime.now()], what a collaborator returned, and a list of
    strings. *)
Inductive field (DateTime Payload : Type) :=
| FStr (s : string)
| FDateTime (t : DateTime)
| FPayload (p : Payload)
| FStrs (l : list string).

Arguments FStr {DateTime Payload} s.
Arguments FDateTime {DateTime Payload} t.
Arguments FPayload {DateTime Payload} p.
Arguments FStrs {DateTime Payload} l.

(** A call of a collaborator other than the stock collector and the
    analyzer: it acts on the world and is not entered in [calls]. *)
Definition on_world {World A : Type} (f : World -> outcome A * World)
  : M (state World) A :=
  fun s =>
    let (r, w) := f (world s) in
    (r, {| world := w; calls := calls s |}).

Section OtherEndpoints.

(** The collaborators: the collector, the analyzer, the chatbot, the email
    service, the clock, and Python's [str]. *)
Context {World DataFrame DateTime CryptoData Reply Message Html : Type}.
Variable collector :
  string -> string -> option string -> World ->
  outcome (option DataFrame) * World.
Variable analyzer : string -> string -> World -> outcome pyval * World.
Variable collector_crypto :
  string -> World -> outcome (option CryptoData) * World.
Variable chatbot_process_query :
  string -> string -> string -> World -> outcome Reply * World.
Variable chatbot_history : World -> outcome (list Message) * World.
Variable message_str : Message -> string.
Variable create_market_summary :
  pyval -> pyval -> World -> outcome Html * World.
Variable send_report :
  string -> string -> Html -> World -> outcome bool * World.
Variable schedule_report :
  string -> string -> string -> string -> World -> outcome unit * World.
Variable now : World -> DateTime.
Variable exc_str : exn -> string.

(** [datetime.now()] *)
Definition datetime_now : M (state World) DateTime :=
  fun s => (Returned (now (world s)), s).

(** Lines 64-71. *)
Definition root : M (state World) pyval :=
  ret (PDict [("message", PStr "Financial Data Analysis API");
              ("version", PStr "1.0.0");
              ("status", PStr "active")]).

(** Lines 168-184; the symbol defaults to "btcusd". *)
Definition get_crypto_data (sym : string)
  : M (state World) (list (string * field DateTime CryptoData)) :=
  try_except_Exception
    (data <- on_world (collector_crypto sym) ;;
     match data with
     | None =>
         raise (HTTPException 404
                  ("No data found for crypto symbol " ++ sym))
     | Some data =>
         timestamp <- datetime_now ;;
         ret [("symbol", FStr sym);
              ("timestamp", FDateTime timestamp);
              ("data", FPayload data)]
     end)
    (fun e =>
       raise (HTTPException 500
                ("Error fetching crypto data: " ++ exc_str e))).

(** Lines 187-203. *)
Definition process_query (request : QueryRequest)
  : M (state World) (list (string * field DateTime Reply)) :=
  try_except_Exception
    (response <- on_world (chatbot_process_query (query request)
                             (query_symbol request) (query_period request)) ;;
     timestamp <- datetime_now ;;
     ret [("timestamp", FDateTime timestamp);
          ("query", FStr (query request));
          ("response", FPayload response);
          ("symbol", FStr (query_symbol request))])
    (fun e =>
       raise (HTTPException 500 ("Error processing query: " ++ exc_str e))).

(** Lines 206-216. *)
Definition get_conversation_history
  : M (state World) (list (string * field DateTime unit)) :=
  try_except_Exception
    (history <- on_world chatbot_history ;;
     timestamp <- datetime_now ;;
     ret [("timestamp", FDateTime timestamp);
          ("history", FStrs (map message_str history))])
    (fun e =>
       raise (HTTPException 500
                ("Error fetching conversation history: " ++ exc_str e))).

(** Lines 219-247.  The collector is called with the symbol and the period
    only, and what it returns is not looked at; [if not success] tests the
    truth value of what [send_report] returned. *)
Definition send_email_report (request : EmailReportRequest)
  : M (state World) pyval :=
  try_except_Exception
    (data <- collector_get_stock_data collector
               (email_symbol request) (email_period request) None ;;
     insights <- analyzer_generate_insights analyzer
                   (email_symbol request) (email_period request) ;;
     html_content <- on_world
                       (create_market_summary
                          (PDict [("symbol", PStr (email_symbol request))])
                          insights) ;;
     success <- on_world
                  (send_report (email request)
                     ("Market Analysis Report - " ++ email_symbol request)
                     html_content) ;;
     if negb success
     then raise (HTTPException 500 "Failed to send email report")
     else ret (PDict [("status", PStr "success");
                      ("message",
                       PStr ("Report sent to " ++ email request))]))
    (fun e =>
       raise (HTTPException 500 ("Error generating report: " ++ exc_str e))).

(** Lines 250-269. *)
Definition schedule_email_report (request : ScheduleReportRequest)
  : M (state World) pyval :=
  try_except_Exception
    (_ <- on_world (schedule_report (schedule_email request)
                      (schedule_symbol request) (frequency request)
                      (time request)) ;;
     ret (PDict [("status", PStr "success");
                 ("message",
                  PStr ("Scheduled " ++ frequency request ++ " report for "
                        ++ schedule_symbol request ++ " at "
                        ++ time request))]))
    (fun e =>
       raise (HTTPException 500 ("Error scheduling report: " ++ exc_str e))).

End OtherEndpoints.

(** ** The other collaborators of the small installation

    The crypto collector knows "btcusd"; the email service refuses the
    recipient "bounce@example.com". *)

Definition demo_crypto (sym : string) (w : string)
  : outcome (option Z) * string :=
  if String.eqb sym "btcusd" then (Returned (Some 43000%Z), w)
  else (Returned None, w).

Definition demo_summary (info insights : pyval) (w : string)
  : outcome string * string :=
  (Returned "<html>report</html>", w).

Definition demo_send (recipient subject html : string) (w : string)
  : outcome bool * string :=
  (Returned (negb (String.eqb recipient "bounce@example.com")), w).

Definition demo_send_email_report
  : EmailReportRequest -> M (state string) pyval :=
  send_email_report demo_collector demo_analyzer demo_summary demo_send
    demo_str.

Definition demo_get_crypto_data
  : string -> M (state string) (list (string * field string Z)) :=
  get_crypto_data demo_crypto demo_now demo_str.

(** A collector whose request to the data source times out. *)
Definition demo_failing_collector (sym per : string) (itv : option string)
  (w : string) : outcome (option (list pyval)) * string :=
  (Raised (OtherException "connection timed out"), w).

(** ** A second installation, with frames that have an index

    A frame has a datetime index or not; [index.strftime] exists on a
    datetime index only.  The collector knows "AAPL", whose frame has one
    row, "NOINDEX", the same rows under a plain index, "EMPTY", a frame
    with a datetime index and no row, and "BLANK", an empty frame with a
    plain index (as [pd.DataFrame()] is).  The analyzer runs three
    indicators, one of which needs fifty samples. *)

Record demo_df := { datetime_index : bool; rows : list pyval }.

Definition demo_df_strftime (data : demo_df) (fmt : string)
  : outcome demo_df :=
  if datetime_index data then Returned data
  else Raised (OtherException
                 "'RangeIndex' object has no attribute 'strftime'").

Definition demo_df_where (data : demo_df) : outcome demo_df := Returned data.

Definition demo_df_records (data : demo_df) : outcome (list pyval) :=
  Returned (rows data).

Definition demo_df_collector (sym per : string) (itv : option string)
  (w : string) : outcome (option demo_df) * string :=
  if String.eqb sym "AAPL"
  then (Returned (Some {| datetime_index := true; rows := demo_frame |}), w)
  else if String.eqb sym "NOINDEX"
  then (Returned (Some {| datetime_index := false; rows := demo_frame |}), w)
  else if String.eqb sym "EMPTY"
  then (Returned (Some {| datetime_index := true; rows := [] |}), w)
  else if String.eqb sym "BLANK"
  then (Returned (Some {| datetime_index := false; rows := [] |}), w)
  else (Returned None, w).

Definition demo_sma_50 : Indicator :=
  {| ind_name := "sma_50"; ind_min_samples := 50;
     ind_compute := fun _ => Returned (PFloat 185.5) |}.

Definition demo_three_indicators : list Indicator :=
  [demo_last_close; demo_sma_50; demo_faulty].

Definition demo_df_analyzer (sym per : string) (w : string)
  : outcome pyval * string :=
  if String.eqb sym "EMPTY" || String.eqb sym "BLANK"
  then (Returned (assemble sym per demo_three_indicators []), w)
  else (Returned (assemble sym per demo_three_indicators demo_series), w).

Definition demo_df_get_stock_analysis
  : StockRequest -> M (state string) pyval :=
  get_stock_analysis demo_df_collector demo_df_analyzer demo_now
    demo_df_strftime demo_df_where demo_df_records demo_str.


(** An analyzer whose bundle holds a tuple of levels. *)
Definition demo_tuple_insights : pyval :=
  PDict [("support_resistance",
          PTuple [PFloat nan; NpFloating float64 101.5])].

Definition demo_tuple_analyzer (sym per : string) (w : string)
  : outcome pyval * string :=
  (Returned demo_tuple_insights, w).

Definition demo_email_request (recipient sym kind : string)
  : EmailReportRequest :=
  {| email := recipient; email_symbol := sym; email_period := "1d";
     report_type := kind |}.

(** * Properties of the sanitization pass *)

(** Structural induction that reaches the members of the containers. *)
Lemma pyval_tree_ind (P : pyval -> Prop) :
  P PNone ->
  (forall b, P (PBool b)) ->
  (forall n, P (PInt n)) ->
  (forall x, P (PFloat x)) ->
  (forall s, P (PStr s)) ->
  (forall k x, P (NpFloating k x)) ->
  (forall k n, P (NpInteger k n)) ->
  (forall b, P (NpBool b)) ->
  (forall items, Forall P items -> P (PTuple items)) ->
  (forall items, Forall P items -> P (PList items)) ->
  (forall items, Forall (fun kv => P (snd kv)) items -> P (PDict items)) ->
  forall v, P v.
Proof.
  intros HNone HBool HInt HFloat HStr HNpF HNpI HNpB HTuple HList HDict.
  fix IH 1.
  intros [ | b | n | x | s | k x | k n | b | items | items | items ].
  - exact HNone.
  - apply HBool.
  - apply HInt.
  - apply HFloat.
  - apply HStr.
  - apply HNpF.
  - apply HNpI.
  - apply HNpB.
  - apply HTuple. induction items as [ | v items IHitems ]; constructor.
    + apply IH.
    + exact IHitems.
  - apply HList. induction items as [ | v items IHitems ]; constructor.
    + apply IH.
    + exact IHitems.
  - apply HDict. induction items as [ | [k v] items IHitems ]; constructor.
    + apply IH.
    + exact IHitems.
Qed.

(** ** Dicts with distinct keys *)

Lemma distinct_middle (l1 l2 : list string) (k : string) :
  distinct (l1 ++ k :: l2) = true -> existsb (String.eqb k) l1 = false.
Proof.
  induction l1 as [ | a l1 IH ]; simpl; intros H.
  - reflexivity.
  - apply andb_prop in H. destruct H as [Ha Hrest].
    rewrite (IH Hrest), orb_false_r.
    destruct (String.eqb k a) eqn:Hka; [ | reflexivity ].
    apply String.eqb_eq in Hka. subst a.
    rewrite existsb_app in Ha. simpl in Ha.
    rewrite String.eqb_refl, orb_true_r in Ha. discriminate.
Qed.

Lemma dict_set_fresh (d : list (string * pyval)) (k : string) (v : pyval) :
  existsb (String.eqb k) (keys d) = false -> dict_set d k v = d ++ [(k, v)].
Proof.
  induction d as [ | [k' v'] d IH ]; simpl; intros H.
  - reflexivity.
  - apply orb_false_elim in H. destruct H as [Hk Hd].
    rewrite Hk, (IH Hd). reflexivity.
Qed.

Lemma fold_dict_set_distinct (items acc : list (string * pyval)) :
  distinct (keys (acc ++ items)) = true ->
  fold_left (fun d kv => dict_set d (fst kv) (snd kv)) items acc
  = acc ++ items.
Proof.
  revert acc.
  induction items as [ | [k v] items IH ]; simpl; intros acc H.
  - now rewrite app_nil_r.
  - rewrite dict_set_fresh.
    + rewrite IH; rewrite <- app_assoc; [ reflexivity | exact H ].
    + unfold keys in H. rewrite map_app in H. simpl in H.
      apply (distinct_middle _ _ _ H).
Qed.

Lemma dict_of_items_distinct (items : list (string * pyval)) :
  distinct (keys items) = true -> dict_of_items items = items.
Proof.
  intros H. unfold dict_of_items.
  now rewrite fold_dict_set_distinct.
Qed.

Lemma keys_map_values (f : pyval -> pyval) (items : list (string * pyval)) :
  keys (map (fun kv => (fst kv, f (snd kv))) items) = keys items.
Proof.
  unfold keys. rewrite map_map. reflexivity.
Qed.

Lemma dict_get_map_values (f : pyval -> pyval)
  (items : list (string * pyval)) (k : string) :
  dict_get (map (fun kv => (fst kv, f (snd kv))) items) k
  = option_map f (dict_get items k).
Proof.
  induction items as [ | [k' v'] items IH ]; simpl.
  - reflexivity.
  - destruct (String.eqb k k'); [ reflexivity | exact IH ].
Qed.

(** On a dict, the pass converts the values in place. *)
Lemma convert_dict (items : list (string * pyval)) :
  distinct (keys items) = true ->
  convert_to_native_types (PDict items)
  = PDict (map (fun kv => (fst kv, convert_to_native_types (snd kv))) items).
Proof.
  intros H. simpl. rewrite dict_of_items_distinct; [ reflexivity | ].
  now rewrite keys_map_values.
Qed.

Lemma well_formed_child (s : step) (v v' : pyval) :
  well_formed v = true -> child s v = Some v' -> well_formed v' = true.
Proof.
  destruct s as [k | i], v; simpl; try discriminate; intros Hwf Hc.
  - apply andb_prop in Hwf. destruct Hwf as [_ Hwf].
    induction items as [ | [k' w] items IH ]; simpl in *; [ discriminate | ].
    apply andb_prop in Hwf. destruct Hwf as [Hw Hwf].
    destruct (String.eqb k k').
    + now inversion Hc; subst.
    + now apply IH.
  - rewrite forallb_forall in Hwf. apply Hwf.
    now apply nth_error_In with i.
Qed.

Lemma child_convert (s : step) (v v' : pyval) :
  well_formed v = true -> child s v = Some v' ->
  child s (convert_to_native_types v) = Some (convert_to_native_types v').
Proof.
  destruct s as [k | i], v; try discriminate; intros Hwf Hc.
  - simpl in Hwf. apply andb_prop in Hwf. destruct Hwf as [Hkeys _].
    rewrite convert_dict by exact Hkeys.
    simpl in *. now rewrite dict_get_map_values, Hc.
  - simpl in *. now rewrite nth_error_map, Hc.
Qed.

(** The pass commutes with the descent to a position. *)
Lemma at_path_convert (p : list step) (v v' : pyval) :
  well_formed v = true -> at_path p v = Some v' ->
  at_path p (convert_to_native_types v) = Some (convert_to_native_types v').
Proof.
  revert v.
  induction p as [ | s p IH ]; simpl; intros v Hwf Hp.
  - now inversion Hp.
  - destruct (child s v) as [w | ] eqn:Hc; [ | discriminate ].
    rewrite (child_convert _ _ _ Hwf Hc).
    apply IH; [ | exact Hp ].
    apply (well_formed_child _ _ _ Hwf Hc).
Qed.

(** ** What the pass does to the leaves *)

Lemma convert_floating (leaf : pyval) (x : float) :
  leaf = PFloat x \/ (exists k, leaf = NpFloating k x) ->
  convert_to_native_types leaf
  = if is_nan x || is_infinity x then PNone else PFloat x.
Proof.
  intros [-> | [k ->]]; simpl; destruct (is_nan x || is_infinity x);
    reflexivity.
Qed.

Lemma convert_plain_leaf (leaf : pyval) :
  plain_leaf leaf = true -> convert_to_native_types leaf = leaf.
Proof.
  destruct leaf; simpl; intros H; try discriminate; reflexivity.
Qed.



(** C9: the pass keeps the structure of the tree: at every position, a dict
    keeps exactly its keys, in their order; a list keeps its length and
    holds, at each index, the converted element of that index; a leaf that
    is neither a number nor a container (a string, None) is returned
    unchanged. *)
Theorem convert_preserves_structure (t : pyval) (p : list step) :
  well_formed t = true ->
  (forall items, at_path p t = Some (PDict items) ->
     exists items',
       at_path p (convert_to_native_types t) = Some (PDict items')
       /\ keys items' = keys items)
  /\ (forall items, at_path p t = Some (PList items) ->
        exists items',
          at_path p (convert_to_native_types t) = Some (PList items')
          /\ List.length items' = List.length items
          /\ forall i, nth_error items' i
                       = option_map convert_to_native_types
                           (nth_error items i))
  /\ (forall leaf, at_path p t = Some leaf -> plain_leaf leaf = true ->
        at_path p (convert_to_native_types t) = Some leaf).
Proof.
  intros Hwf. repeat split.
  - intros items Hp.
    assert (Hd : well_formed (PDict items) = true).
    { clear - Hwf Hp. revert t Hwf Hp.
      induction p as [ | s p IH ]; simpl; intros t Hwf Hp.
      - now inversion Hp; subst.
      - destruct (child s t) as [w | ] eqn:Hc; [ | discriminate ].
        apply (IH w); [ apply (well_formed_child _ _ _ Hwf Hc) | exact Hp ]. }
    simpl in Hd. apply andb_prop in Hd. destruct Hd as [Hkeys _].
    rewrite (at_path_convert _ _ _ Hwf Hp), (convert_dict _ Hkeys).
    eexists. split; [ reflexivity | apply keys_map_values ].
  - intros items Hp.
    rewrite (at_path_convert _ _ _ Hwf Hp). simpl.
    eexists. split; [ reflexivity | ]. split.
    + apply length_map.
    + intros i. apply nth_error_map.
  - intros leaf Hp Hleaf.
    rewrite (at_path_convert _ _ _ Hwf Hp), (convert_plain_leaf _ Hleaf).
    reflexivity.
Qed.

Lemma convert_preserves_structure_witness :
  let t := PDict [("trend", PStr "up");
                  ("sma", PList [NpFloating float64 nan; PFloat 127]);
                  ("note", PNone)] in
  well_formed t = true
  /\ (exists items',
        at_path [] (convert_to_native_types t) = Some (PDict items')
        /\ keys items' = ["trend"; "sma"; "note"])
  /\ at_path [Key "trend"] (convert_to_native_types t) = Some (PStr "up").
Proof.
  intros t.
  assert (Hwf : well_formed t = true) by reflexivity.
  split; [ exact Hwf | ]. split.
  - destruct (convert_preserves_structure t [] Hwf) as [Hdict _].
    apply (Hdict _ eq_refl).
  - destruct (convert_preserves_structure t [Key "trend"] Hwf)
      as [_ [_ Hleaf]].
    apply (Hleaf (PStr "up") eq_refl eq_refl).
Defined.

(** ** Values stored by a dict comprehension *)

Lemma dict_set_values (P : pyval -> Prop) (d : list (string * pyval))
  (k : string) (v : pyval) :
  Forall (fun kv => P (snd kv)) d -> P v ->
  Forall (fun kv => P (snd kv)) (dict_set d k v).
Proof.
  intros Hd Hv.
  induction Hd as [ | [k' v'] d Hhead Hd IH ]; simpl.
  - now constructor.
  - destruct (String.eqb k k'); constructor; trivial.
Qed.

Lemma dict_of_items_values (P : pyval -> Prop)
  (items : list (string * pyval)) :
  Forall (fun kv => P (snd kv)) items ->
  Forall (fun kv => P (snd kv)) (dict_of_items items).
Proof.
  unfold dict_of_items.
  assert (Hacc : Forall (fun kv : string * pyval => P (snd kv)) [])
    by constructor.
  revert Hacc. generalize (@nil (string * pyval)) as acc.
  induction items as [ | [k v] items IH ]; simpl; intros acc Hacc Hitems.
  - exact Hacc.
  - inversion Hitems; subst.
    apply IH; [ now apply dict_set_values | assumption ].
Qed.

Lemma dict_set_keys_distinct (d : list (string * pyval)) (k : string)
  (v : pyval) :
  distinct (keys d) = true -> distinct (keys (dict_set d k v)) = true.
Proof.
  induction d as [ | [k' v'] d IH ]; simpl; intros H.
  - reflexivity.
  - destruct (String.eqb k k') eqn:Hk; [ exact H | ].
    simpl. apply andb_prop in H. destruct H as [Hfresh Hd].
    rewrite (IH Hd), andb_true_r.
    apply negb_true_iff in Hfresh. apply negb_true_iff.
    clear IH Hd.
    induction d as [ | [k'' v''] d IHd ]; simpl in *.
    + rewrite String.eqb_sym, Hk. reflexivity.
    + apply orb_false_elim in Hfresh. destruct Hfresh as [Hne Hfresh].
      destruct (String.eqb k k''); simpl; rewrite Hne; simpl;
        [ exact Hfresh | now apply IHd ].
Qed.

Lemma dict_of_items_keys_distinct (items : list (string * pyval)) :
  distinct (keys (dict_of_items items)) = true.
Proof.
  unfold dict_of_items.
  assert (Hacc : distinct (keys []) = true) by reflexivity.
  revert Hacc. generalize (@nil (string * pyval)) as acc.
  induction items as [ | [k v] items IH ]; simpl; intros acc Hacc.
  - exact Hacc.
  - apply IH. now apply dict_set_keys_distinct.
Qed.

(** ** Serialization safety *)

(** When the tree has dicts and lists as its only containers, the output of
    the pass is serialization-safe: no NaN, no infinity and no numpy scalar
    is left anywhere in it. *)
Lemma convert_dict_list_tree_is_safe (t : pyval) :
  dict_list_tree t = true ->
  serialization_safe (convert_to_native_types t) = true.
Proof.
  induction t as [ | b | n | x | s | k x | k n | b | items IH | items IH
                   | items IH ] using pyval_tree_ind;
    intros Ht; try reflexivity; try discriminate.
  - rewrite (convert_floating (PFloat x) x) by now left.
    destruct (is_nan x || is_infinity x) eqn:Hx; simpl; [ reflexivity | ].
    unfold is_finite. now rewrite Hx.
  - rewrite (convert_floating (NpFloating k x) x) by (right; now exists k).
    destruct (is_nan x || is_infinity x) eqn:Hx; simpl; [ reflexivity | ].
    unfold is_finite. now rewrite Hx.
  - simpl in *. rewrite forallb_forall in *.
    intros v' Hin. apply in_map_iff in Hin. destruct Hin as [v [<- Hin]].
    rewrite Forall_forall in IH. now apply IH; [ | apply Ht ].
  - simpl in *.
    rewrite forallb_forall. apply Forall_forall.
    apply (dict_of_items_values (fun v => serialization_safe v = true)).
    rewrite Forall_forall in *. rewrite forallb_forall in Ht.
    intros kv' Hin. apply in_map_iff in Hin. destruct Hin as [kv [<- Hin]].
    simpl. now apply IH; [ | apply Ht ].
Qed.

Lemma convert_dict_list_tree_is_safe_witness :
  let t := PDict [("rsi", NpFloating float64 nan);
                  ("volume", NpInteger int64 1200);
                  ("crossovers", PList [NpBool true; PFloat infinity])] in
  dict_list_tree t = true
  /\ serialization_safe (convert_to_native_types t) = true.
Proof.
  intros t. split; [ reflexivity | ].
  apply (convert_dict_list_tree_is_safe t). reflexivity.
Defined.

Lemma serialization_safe_json_encodable (v : pyval) :
  serialization_safe v = true -> json_encodable v = true.
Proof.
  induction v as [ | b | n | x | s | k x | k n | b | items IH | items IH
                   | items IH ] using pyval_tree_ind;
    intros Hv; try reflexivity; try discriminate; try exact Hv.
  - simpl in *. rewrite forallb_forall in *. rewrite Forall_forall in IH.
    intros v Hin. now apply IH; [ | apply Hv ].
  - simpl in *. rewrite forallb_forall in *. rewrite Forall_forall in IH.
    intros v Hin. now apply IH; [ | apply Hv ].
  - simpl in *. rewrite forallb_forall in *. rewrite Forall_forall in IH.
    intros kv Hin. now apply IH; [ | apply Hv ].
Qed.

(** C2: a bundle that holds a tuple leaves the pass with the NaN and the
    numpy scalar of the tuple still in it: a tuple is neither a dict nor a
    list, so it is returned as it is, whereas the same members in a list
    are sanitized.  The body the analysis handler then returns cannot be
    encoded, and the request is answered with a 500. *)
Theorem convert_leaves_nan_inside_tuple :
  convert_to_native_types demo_tuple_insights = demo_tuple_insights
  /\ serialization_safe (convert_to_native_types demo_tuple_insights)
     = false
  /\ convert_to_native_types
       (PDict [("support_resistance",
                PList [PFloat nan; NpFloating float64 101.5])])
     = PDict [("support_resistance", PList [PNone; PFloat 101.5])]
  /\ status
       (respond
          (fst (get_stock_analysis demo_collector demo_tuple_analyzer
                  demo_now demo_strftime demo_where demo_records demo_str
                  (demo_request "AAPL")
                  (demo_state "2024-01-02T10:00:00"))))
     = 500%Z.
Proof.
  repeat split.
Qed.

(** ** Type normalization *)

(** The numpy scalars become the native values of the same content. *)
Lemma convert_numpy_scalars :
  (forall k x, is_finite x = true ->
     convert_to_native_types (NpFloating k x) = PFloat x)
  /\ (forall k n, convert_to_native_types (NpInteger k n) = PInt n)
  /\ (forall b, convert_to_native_types (NpBool b) = PBool b).
Proof.
  repeat split; try reflexivity.
  intros k x Hx. unfold is_finite in Hx. apply negb_true_iff in Hx.
  rewrite (convert_floating (NpFloating k x) x) by (right; now exists k).
  now rewrite Hx.
Qed.

Lemma convert_bool (b : bool) :
  convert_to_native_types (PBool b) = PInt (if b then 1 else 0).
Proof. reflexivity. Qed.

(** C4: the numpy bool of a bundle becomes a native bool, but a native bool
    leaf does not stay a boolean: [bool] is a subclass of [int], the integer
    test comes first and [int(obj)] makes it 1 or 0. *)
Theorem convert_turns_native_bool_into_int :
  convert_to_native_types
    (PDict [("oversold", NpBool false); ("above_sma_50", PBool true)])
  = PDict [("oversold", PBool false); ("above_sma_50", PInt 1)].
Proof. reflexivity. Qed.

(** ** Applying the pass twice *)

(** C8: on a numpy bool the second application changes the result of the
    first: the native bool the first one produced is turned into an int. *)
Theorem convert_twice_differs_on_np_bool :
  convert_to_native_types (NpBool true) = PBool true
  /\ convert_to_native_types (convert_to_native_types (NpBool true))
     = PInt 1
  /\ convert_to_native_types (convert_to_native_types (NpBool true))
     <> convert_to_native_types (NpBool true).
Proof.
  repeat split; discriminate.
Qed.

Lemma map_values_fixed (f : pyval -> pyval) (d : list (string * pyval)) :
  Forall (fun kv => f (snd kv) = snd kv) d ->
  map (fun kv => (fst kv, f (snd kv))) d = d.
Proof.
  induction 1 as [ | [k v] d Hv _ IH ]; simpl.
  - reflexivity.
  - simpl in Hv. now rewrite Hv, IH.
Qed.

(** Away from numpy bools the pass is idempotent. *)
Lemma convert_idempotent_without_np_bool (t : pyval) :
  no_np_bool t = true ->
  convert_to_native_types (convert_to_native_types t)
  = convert_to_native_types t.
Proof.
  induction t as [ | b | n | x | s | k x | k n | b | items IH | items IH
                   | items IH ] using pyval_tree_ind;
    intros Ht; try reflexivity; try discriminate.
  - rewrite (convert_floating (PFloat x) x) by now left.
    destruct (is_nan x || is_infinity x) eqn:Hx; [ reflexivity | ].
    rewrite (convert_floating (PFloat x) x) by now left.
    now rewrite Hx.
  - rewrite (convert_floating (NpFloating k x) x) by (right; now exists k).
    destruct (is_nan x || is_infinity x) eqn:Hx; [ reflexivity | ].
    rewrite (convert_floating (PFloat x) x) by now left.
    now rewrite Hx.
  - simpl in *. f_equal. rewrite map_map. apply map_ext_in.
    intros v Hin. rewrite Forall_forall in IH. rewrite forallb_forall in Ht.
    now apply IH; [ | apply Ht ].
  - change (convert_to_native_types (PDict items))
      with (PDict (dict_of_items
                     (map (fun kv => (fst kv,
                                      convert_to_native_types (snd kv)))
                          items))).
    rewrite convert_dict by apply dict_of_items_keys_distinct.
    f_equal. apply map_values_fixed.
    apply (dict_of_items_values
             (fun v => convert_to_native_types v = v)).
    simpl in Ht. rewrite forallb_forall in Ht. rewrite Forall_forall in *.
    intros kv' Hin. apply in_map_iff in Hin. destruct Hin as [kv [<- Hin]].
    simpl. now apply IH; [ | apply Ht ].
Qed.

(** * The assembler of the specification *)

Lemma indicator_entries_distinct (indicators : list Indicator)
  (series : TimeSeries) :
  distinct (map ind_name indicators) = true ->
  indicator_entries indicators series
  = map (fun ind => (ind_name ind, marker (run_indicator ind series)))
        indicators.
Proof.
  intros H. unfold indicator_entries.
  apply dict_of_items_distinct.
  unfold keys. rewrite map_map. exact H.
Qed.



Lemma convert_assemble (sym per : string) (indicators : list Indicator)
  (series : TimeSeries) :
  distinct (map ind_name indicators) = true ->
  convert_to_native_types (assemble sym per indicators series)
  = PDict [("symbol", PStr sym);
           ("period", PStr per);
           ("indicators",
            PDict (map (fun ind =>
                          (ind_name ind,
                           convert_to_native_types
                             (marker (run_indicator ind series))))
                       indicators))].
Proof.
  intros H. unfold assemble.
  rewrite convert_dict by reflexivity.
  cbn [map fst snd].
  rewrite convert_dict.
  - rewrite (indicator_entries_distinct _ _ H), map_map. reflexivity.
  - rewrite (indicator_entries_distinct _ _ H).
    unfold keys. rewrite map_map. exact H.
Qed.

(** * Properties of the stock endpoints *)

Section EndpointProperties.

Context {World DataFrame : Type}.
Variable collector :
  string -> string -> option string -> World ->
  outcome (option DataFrame) * World.
Variable analyzer : string -> string -> World -> outcome pyval * World.
Variable now_isoformat : World -> string.
Variable index_strftime : DataFrame -> string -> outcome DataFrame.
Variable where_notna_else_None : DataFrame -> outcome DataFrame.
Variable reset_index_to_dict_records : DataFrame -> outcome (list pyval).
Variable exc_str : exn -> string.

Local Abbreviation stock_data :=
  (get_stock_data collector now_isoformat index_strftime
     where_notna_else_None reset_index_to_dict_records exc_str).
Local Abbreviation stock_analysis :=
  (get_stock_analysis collector analyzer now_isoformat index_strftime
     where_notna_else_None reset_index_to_dict_records exc_str).
Local Abbreviation records :=
  (frame_to_records index_strftime where_notna_else_None
     reset_index_to_dict_records).

Ltac run_handler :=
  unfold get_stock_data, get_stock_analysis, try_except_Exception, bind,
    collector_get_stock_data, analyzer_generate_insights,
    datetime_now_isoformat, lift, raise, ret;
  simpl.

(** C3: when the collector gives the not-found signal, both endpoints
    raise the 404 inside their [try] block, the [except Exception] clause
    catches it, and the response is a 500 that wraps the 404 message. *)
Theorem not_found_is_answered_with_500
  (request : StockRequest) (s : state World) :
  (forall w,
      collector (symbol request) (period request)
        (Some (interval request)) (world s) = (Returned None, w) ->
      fst (stock_data request s)
      = Raised (HTTPException 500
                  ("Error fetching stock data: "
                   ++ exc_str (HTTPException 404
                                 ("No data found for symbol "
                                  ++ symbol request))))
      /\ status (respond (fst (stock_data request s))) = 500%Z
      /\ client_error (respond (fst (stock_data request s))) = false
      /\ server_error (respond (fst (stock_data request s))) = true)
  /\ (forall w,
         collector (symbol request) (period request) None (world s)
         = (Returned None, w) ->
         fst (stock_analysis request s)
         = Raised (HTTPException 500
                     ("Error generating analysis: "
                      ++ exc_str (HTTPException 404
                                    ("No data found for symbol "
                                     ++ symbol request))))
         /\ status (respond (fst (stock_analysis request s))) = 500%Z
         /\ client_error (respond (fst (stock_analysis request s))) = false
         /\ server_error (respond (fst (stock_analysis request s))) = true).
Proof.
  split; intros w Hc; run_handler; rewrite Hc; simpl; repeat split.
Qed.

(** C10: the analysis endpoint reads only the symbol and the period of the
    request: two requests that differ in the interval alone make the same
    calls to the collector and the analyzer and get the same outcome.  The
    data endpoint hands the interval over to the collector. *)
Theorem analysis_ignores_interval
  (r1 r2 : StockRequest) (s : state World) :
  symbol r1 = symbol r2 -> period r1 = period r2 ->
  stock_analysis r1 s = stock_analysis r2 s
  /\ calls (snd (stock_data r1 s))
     = calls s
       ++ [GetStockData (symbol r1) (period r1) (Some (interval r1))].
Proof.
  intros Hsym Hper. split.
  - unfold get_stock_analysis. now rewrite Hsym, Hper.
  - run_handler.
    destruct (collector (symbol r1) (period r1) (Some (interval r1))
                (world s)) as [[[data | ] | e] w]; simpl.
    + destruct (records data) as [recs | e];
        [ | destruct (is_Exception e) ]; reflexivity.
    + reflexivity.
    + destruct (is_Exception e); reflexivity.
Qed.

(** The endpoint itself isolates nothing: an exception that leaves the
    analyzer ends the request with a 500. *)
Lemma analyzer_failure_is_answered_with_500
  (request : StockRequest) (s : state World) (data : DataFrame)
  (w w' : World) (message : string) :
  collector (symbol request) (period request) None (world s)
  = (Returned (Some data), w) ->
  analyzer (symbol request) (period request) w
  = (Raised (OtherException message), w') ->
  status (respond (fst (stock_analysis request s))) = 500%Z.
Proof.
  intros Hc Ha. run_handler. rewrite Hc. simpl. rewrite Ha. reflexivity.
Qed.

(** What a run of the analysis endpoint returns when the collector finds
    the symbol, the analyzer returns and the frame converts. *)
Lemma analysis_returns
  (request : StockRequest) (s : state World) (data : DataFrame)
  (w w' : World) (raw : pyval) (recs : list pyval) :
  collector (symbol request) (period request) None (world s)
  = (Returned (Some data), w) ->
  analyzer (symbol request) (period request) w = (Returned raw, w') ->
  records data = Returned recs ->
  fst (stock_analysis request s)
  = Returned
      (PDict [("timestamp", PStr (now_isoformat w'));
              ("symbol", PStr (symbol request));
              ("data", PList (map convert_to_native_types recs));
              ("insights", convert_to_native_types raw)]).
Proof.
  intros Hc Ha Hr. run_handler.
  rewrite Hc. simpl. rewrite Ha. simpl. rewrite Hr. reflexivity.
Qed.



Lemma json_encodable_entries (indicators : list Indicator)
  (series : TimeSeries) :
  (forall ind v, In ind indicators -> run_indicator ind series = Value v ->
     dict_list_tree v = true) ->
  forallb (fun kv => json_encodable (snd kv))
    (map (fun ind =>
            (ind_name ind,
             convert_to_native_types (marker (run_indicator ind series))))
         indicators) = true.
Proof.
  intros H. rewrite forallb_forall.
  intros kv Hin. apply in_map_iff in Hin. destruct Hin as [ind [<- Hin]].
  simpl. destruct (run_indicator ind series) as [v | | ] eqn:Hrun;
    try reflexivity.
  apply serialization_safe_json_encodable.
  apply convert_dict_list_tree_is_safe. now apply (H ind).
Qed.


(** When the frame of an empty series converts to no record, the request is
    answered with a successful response, and every indicator of the bundle
    the specification's assembler built reports "insufficient data". *)
Lemma empty_series_reports_insufficient_data
  (request : StockRequest) (s : state World) (data : DataFrame)
  (w w' : World) (indicators : list Indicator) :
  collector (symbol request) (period request) None (world s)
  = (Returned (Some data), w) ->
  records data = Returned [] ->
  analyzer (symbol request) (period request) w
  = (Returned (assemble (symbol request) (period request)
                 indicators []), w') ->
  distinct (map ind_name indicators) = true ->
  exists body,
    fst (stock_analysis request s) = Returned body
    /\ successful (respond (fst (stock_analysis request s))) = true
    /\ at_path [Key "data"] body = Some (PList [])
    /\ at_path [Key "insights"; Key "indicators"] body
       = Some (PDict (map (fun ind =>
                             (ind_name ind, PStr "insufficient data"))
                          indicators)).
Proof.
  intros Hc Hr Ha Hnames.
  rewrite (analysis_returns request s data w w' _ [] Hc Ha Hr).
  rewrite (convert_assemble _ _ _ _ Hnames).
  eexists. split; [ reflexivity | ]. split; [ | split; reflexivity ].
  unfold respond.
  cbn [json_encodable forallb snd map].
  rewrite (json_encodable_entries indicators []) by (intros; discriminate).
  reflexivity.
Qed.

(** C7: a symbol that is found but whose frame is empty is answered with a
    500 when the index of the frame has no [strftime]: the conversion of
    the frame raises inside the [try] block, although the analyzer has
    already returned the bundle in which every indicator reports
    "insufficient data". *)
Theorem empty_frame_without_datetime_index_is_answered_with_500
  (request : StockRequest) (s : state World) (data : DataFrame)
  (w w' : World) (indicators : list Indicator) (e : exn) :
  collector (symbol request) (period request) None (world s)
  = (Returned (Some data), w) ->
  analyzer (symbol request) (period request) w
  = (Returned (assemble (symbol request) (period request)
                 indicators []), w') ->
  index_strftime data "%Y-%m-%d %H:%M:%S" = Raised e ->
  is_Exception e = true ->
  fst (stock_analysis request s)
  = Raised (HTTPException 500
              ("Error generating analysis: " ++ exc_str e))
  /\ successful (respond (fst (stock_analysis request s))) = false
  /\ server_error (respond (fst (stock_analysis request s))) = true.
Proof.
  intros Hc Ha Hi He.
  assert (Hrun : fst (stock_analysis request s)
                 = Raised (HTTPException 500
                             ("Error generating analysis: " ++ exc_str e))).
  { run_handler. rewrite Hc. simpl. rewrite Ha. simpl.
    unfold frame_to_records. rewrite Hi. simpl. now rewrite He. }
  rewrite Hrun. repeat split.
Qed.

End EndpointProperties.

(** * The endpoints on the small installation *)

Lemma not_found_is_answered_with_500_witness :
  let request := demo_request "NOPE" in
  let s := demo_state "2024-01-02T10:00:00" in
  (demo_collector "NOPE" "6mo" (Some "1d") (world s)
   = (Returned None, world s)
   /\ client_error (respond (fst (demo_get_stock_data request s))) = false)
  /\ (demo_collector "NOPE" "6mo" None (world s) = (Returned None, world s)
      /\ client_error (respond (fst (demo_get_stock_analysis request s)))
         = false).
Proof.
  intros request s.
  destruct (not_found_is_answered_with_500
              demo_collector demo_analyzer demo_now demo_strftime demo_where
              demo_records demo_str request s) as [Hdata Hanalysis].
  split; (split; [ reflexivity | ]).
  - apply (Hdata (world s)). reflexivity.
  - apply (Hanalysis (world s)). reflexivity.
Defined.

Lemma analysis_ignores_interval_witness :
  let r1 := {| symbol := "AAPL"; period := "6mo"; interval := "1d" |} in
  let r2 := {| symbol := "AAPL"; period := "6mo"; interval := "1h" |} in
  let s := demo_state "2024-01-02T10:00:00" in
  demo_get_stock_analysis r1 s = demo_get_stock_analysis r2 s
  /\ calls (snd (demo_get_stock_data r1 s))
     = [GetStockData "AAPL" "6mo" (Some "1d")].
Proof.
  intros r1 r2 s.
  apply (analysis_ignores_interval
           demo_collector demo_analyzer demo_now demo_strftime demo_where
           demo_records demo_str r1 r2 s); reflexivity.
Defined.





Lemma empty_series_reports_insufficient_data_witness :
  let request := demo_request "EMPTY" in
  let s := demo_state "2024-01-02T10:00:00" in
  exists body,
    fst (demo_get_stock_analysis request s) = Returned body
    /\ successful (respond (fst (demo_get_stock_analysis request s))) = true
    /\ at_path [Key "data"] body = Some (PList [])
    /\ at_path [Key "insights"; Key "indicators"] body
       = Some (PDict [("last_close", PStr "insufficient data");
                      ("rsi", PStr "insufficient data")]).
Proof.
  intros request s.
  apply (empty_series_reports_insufficient_data
           demo_collector demo_analyzer demo_now demo_strftime demo_where
           demo_records demo_str request s [] (world s) (world s)
           demo_indicators); reflexivity.
Defined.

Lemma empty_frame_without_datetime_index_is_answered_with_500_witness :
  let request := demo_request "BLANK" in
  let s := demo_state "2024-01-02T10:00:00" in
  demo_df_collector "BLANK" "6mo" None (world s)
  = (Returned (Some {| datetime_index := false; rows := [] |}), world s)
  /\ fst (demo_df_get_stock_analysis request s)
     = Raised (HTTPException 500
                 ("Error generating analysis: "
                  ++ "'RangeIndex' object has no attribute 'strftime'"))
  /\ successful (respond (fst (demo_df_get_stock_analysis request s)))
     = false
  /\ server_error (respond (fst (demo_df_get_stock_analysis request s)))
     = true.
Proof.
  intros request s. split; [ reflexivity | ].
  apply (empty_frame_without_datetime_index_is_answered_with_500
           demo_df_collector demo_df_analyzer demo_now demo_df_strftime
           demo_df_where demo_df_records demo_str request s
           {| datetime_index := false; rows := [] |} (world s) (world s)
           demo_three_indicators
           (OtherException
              "'RangeIndex' object has no attribute 'strftime'"));
    reflexivity.
Defined.

(** The envelope of the response carries the time of the call, so the whole
    responses of two runs differ when the clock does. *)
Lemma analysis_timestamp_follows_the_clock :
  fst (demo_get_stock_analysis (demo_request "AAPL")
         (demo_state "2024-01-02T10:00:00"))
  <> fst (demo_get_stock_analysis (demo_request "AAPL")
            (demo_state "2024-01-02T10:05:00")).
Proof.
  vm_compute. discriminate.
Qed.

(** * More properties of the sanitization pass *)

Lemma child_convert_eq (s : step) (v : pyval) :
  well_formed v = true ->
  child s (convert_to_native_types v)
  = option_map convert_to_native_types (child s v).
Proof.
  intros Hwf.
  destruct s as [k | i], v;
    try (simpl;
         repeat match goal with
                | |- context [if ?b then _ else _] => destruct b
                end;
         reflexivity).
  - simpl in Hwf. apply andb_prop in Hwf. destruct Hwf as [Hkeys _].
    rewrite convert_dict by exact Hkeys.
    simpl. apply dict_get_map_values.
  - simpl. apply nth_error_map.
Qed.

Lemma at_path_convert_eq (p : list step) (t : pyval) :
  well_formed t = true ->
  at_path p (convert_to_native_types t)
  = match at_path p t with
    | Some v => Some (convert_to_native_types v)
    | None => None
    end.
Proof.
  revert t.
  induction p as [ | s p IH ]; simpl; intros t Hwf.
  - reflexivity.
  - rewrite (child_convert_eq s t Hwf).
    destruct (child s t) as [w | ] eqn:Hc; simpl; [ | reflexivity ].
    apply IH. apply (well_formed_child _ _ _ Hwf Hc).
Qed.

Lemma dict_get_in (d : list (string * pyval)) (k : string) (w : pyval) :
  dict_get d k = Some w -> exists k', In (k', w) d.
Proof.
  induction d as [ | [k' v'] d IH ]; simpl; intros H.
  - discriminate.
  - destruct (String.eqb k k').
    + inversion H; subst. exists k'. now left.
    + destruct (IH H) as [k'' Hin]. exists k''. now right.
Qed.

Lemma convert_no_np_bool (t : pyval) :
  no_np_bool (convert_to_native_types t) = true.
Proof.
  induction t as [ | b | n | x | s | k x | k n | b | items IH | items IH
                   | items IH ] using pyval_tree_ind;
    try reflexivity.
  - simpl. destruct (is_nan x || is_infinity x); reflexivity.
  - simpl. destruct (is_nan x || is_infinity x); reflexivity.
  - simpl. rewrite forallb_forall. intros v' Hin.
    apply in_map_iff in Hin. destruct Hin as [v [<- Hin]].
    rewrite Forall_forall in IH. now apply IH.
  - simpl. rewrite forallb_forall. apply Forall_forall.
    apply (dict_of_items_values (fun v => no_np_bool v = true)).
    rewrite Forall_forall in *.
    intros kv' Hin. apply in_map_iff in Hin. destruct Hin as [kv [<- Hin]].
    simpl. now apply IH.
Qed.

(** X1: the pass neither creates nor removes a position: a value sits at a
    position of the output exactly when it is the converted value of what
    sits at that position of the input. *)
Theorem convert_keeps_positions (t : pyval) (p : list step) (v' : pyval) :
  well_formed t = true ->
  at_path p (convert_to_native_types t) = Some v'
  <-> exists v, at_path p t = Some v /\ convert_to_native_types v = v'.
Proof.
  intros Hwf. rewrite (at_path_convert_eq p t Hwf). split.
  - destruct (at_path p t) as [v | ]; [ | discriminate ].
    intros H. inversion H; subst. now exists v.
  - intros [v [Hv <-]]. now rewrite Hv.
Qed.

Lemma convert_keeps_positions_witness :
  let t := PDict [("sma", PList [NpFloating float64 nan; PFloat 127])] in
  well_formed t = true
  /\ (at_path [Key "sma"; Index 1] (convert_to_native_types t)
      = Some (PFloat 127)
      <-> exists v, at_path [Key "sma"; Index 1] t = Some v
                    /\ convert_to_native_types v = PFloat 127).
Proof.
  intros t. split; [ reflexivity | ].
  apply (convert_keeps_positions t [Key "sma"; Index 1] (PFloat 127)).
  reflexivity.
Defined.

(** X2: a None in the output stands for a None or for a NaN or infinite
    floating leaf of the input, and for nothing else. *)
Theorem none_comes_from_none_or_degenerate (t : pyval) (p : list step) :
  well_formed t = true ->
  at_path p (convert_to_native_types t) = Some PNone ->
  exists v, at_path p t = Some v
            /\ (v = PNone \/ degenerate_floating v = true).
Proof.
  intros Hwf H. rewrite (at_path_convert_eq p t Hwf) in H.
  destruct (at_path p t) as [v | ]; [ | discriminate ].
  exists v. split; [ reflexivity | ].
  inversion H as [Hv]. clear H.
  unfold degenerate_floating.
  destruct v; simpl in *; try discriminate; auto;
    destruct (is_nan x || is_infinity x); try discriminate; auto.
Qed.

Lemma none_comes_from_none_or_degenerate_witness :
  let t := PDict [("rsi", NpFloating float32 infinity)] in
  well_formed t = true
  /\ at_path [Key "rsi"] (convert_to_native_types t) = Some PNone
  /\ exists v, at_path [Key "rsi"] t = Some v
               /\ (v = PNone \/ degenerate_floating v = true).
Proof.
  intros t. split; [ reflexivity | ]. split; [ reflexivity | ].
  apply (none_comes_from_none_or_degenerate t [Key "rsi"]); reflexivity.
Defined.

(** X3: the pass applied a third time changes nothing: whatever the tree,
    two applications reach a fixed point. *)
Theorem convert_stable_after_two_passes (t : pyval) :
  convert_to_native_types
    (convert_to_native_types (convert_to_native_types t))
  = convert_to_native_types (convert_to_native_types t).
Proof.
  apply convert_idempotent_without_np_bool. apply convert_no_np_bool.
Qed.

(** X4: a tree that holds, at the positions the pass reaches, only None,
    ints, finite floats, strings and tuples is returned as it is. *)
Theorem convert_fixes_native_trees (t : pyval) :
  well_formed t = true -> already_native t = true ->
  convert_to_native_types t = t.
Proof.
  induction t as [ | b | n | x | s | k x | k n | b | items IH | items IH
                   | items IH ] using pyval_tree_ind;
    intros Hwf Hn; try reflexivity; try discriminate.
  - simpl in Hn. unfold is_finite in Hn. apply negb_true_iff in Hn.
    rewrite (convert_floating (PFloat x) x) by now left.
    now rewrite Hn.
  - simpl in *. f_equal.
    rewrite forallb_forall in Hwf, Hn. rewrite Forall_forall in IH.
    rewrite <- (map_id items) at 2. apply map_ext_in.
    intros v Hin. now apply IH; [ | apply Hwf | apply Hn ].
  - simpl in Hwf. apply andb_prop in Hwf. destruct Hwf as [Hkeys Hwf].
    rewrite (convert_dict _ Hkeys). f_equal.
    apply map_values_fixed.
    simpl in Hn. rewrite forallb_forall in Hwf, Hn.
    rewrite Forall_forall in *.
    intros kv Hin. now apply IH; [ | apply Hwf | apply Hn ].
Qed.

Lemma convert_fixes_native_trees_witness :
  let t := PDict [("trend", PStr "up"); ("sma", PList [PFloat 127; PNone]);
                  ("range", PTuple [NpFloating float64 nan]);
                  ("volume", PInt 1200)] in
  well_formed t = true /\ already_native t = true
  /\ convert_to_native_types t = t.
Proof.
  intros t. split; [ reflexivity | ]. split; [ reflexivity | ].
  apply (convert_fixes_native_trees t); reflexivity.
Defined.

(** X6: whatever the tree, no numpy scalar and no NaN or infinite float sits
    at a position of the output that is reached through dicts and lists:
    the values the pass leaves unsanitized are all inside tuples. *)
Theorem convert_output_native_at_positions
  (t : pyval) (p : list step) (v : pyval) :
  at_path p (convert_to_native_types t) = Some v -> native_finite v = true.
Proof.
  revert p v.
  induction t as [ | b | n | x | s | k x | k n | b | items IH | items IH
                   | items IH ] using pyval_tree_ind;
    intros p v Hp;
    try (destruct p as [ | [k' | i'] p ]; simpl in Hp;
         [ inversion Hp; reflexivity | discriminate | discriminate ]).
  - destruct p as [ | [k' | i'] p ]; simpl in Hp;
      destruct (is_nan x || is_infinity x) eqn:Hx; simpl in Hp;
      try discriminate; inversion Hp; subst; simpl;
      [ reflexivity | unfold is_finite; now rewrite Hx ].
  - destruct p as [ | [k' | i'] p ]; simpl in Hp;
      destruct (is_nan x || is_infinity x) eqn:Hx; simpl in Hp;
      try discriminate; inversion Hp; subst; simpl;
      [ reflexivity | unfold is_finite; now rewrite Hx ].
  - destruct p as [ | [k' | i'] p ]; simpl in Hp;
      [ inversion Hp; reflexivity | discriminate | ].
    destruct (nth_error (map convert_to_native_types items) i')
      as [w | ] eqn:Hw; [ | discriminate ].
    apply nth_error_In in Hw. apply in_map_iff in Hw.
    destruct Hw as [u [<- Hin]].
    rewrite Forall_forall in IH. apply (IH u Hin p v Hp).
  - destruct p as [ | [k' | i'] p ];
      [ inversion Hp; reflexivity | | discriminate ].
    change (convert_to_native_types (PDict items))
      with (PDict (dict_of_items
                     (map (fun kv => (fst kv,
                                      convert_to_native_types (snd kv)))
                          items))) in Hp.
    simpl in Hp.
    destruct (dict_get _ k') as [w | ] eqn:Hw in Hp; [ | discriminate ].
    apply dict_get_in in Hw. destruct Hw as [k'' Hin].
    assert (Hall : Forall
                     (fun kv : string * pyval =>
                        forall p v, at_path p (snd kv) = Some v ->
                                    native_finite v = true)
                     (dict_of_items
                        (map (fun kv => (fst kv,
                                         convert_to_native_types (snd kv)))
                             items))).
    { apply (dict_of_items_values
               (fun w => forall p v, at_path p w = Some v ->
                                     native_finite v = true)).
      rewrite Forall_forall in *.
      intros kv' Hin'. apply in_map_iff in Hin'.
      destruct Hin' as [kv [<- Hin']]. simpl. now apply IH. }
    rewrite Forall_forall in Hall.
    apply (Hall (k'', w) Hin p v Hp).
Qed.

Lemma convert_output_native_at_positions_witness :
  let t := PList [PDict [("close", NpFloating float64 185.5);
                         ("gap", PFloat neg_infinity)]] in
  at_path [Index 0; Key "close"] (convert_to_native_types t)
  = Some (PFloat 185.5)
  /\ native_finite (PFloat 185.5) = true.
Proof.
  intros t. split; [ reflexivity | ].
  apply (convert_output_native_at_positions t [Index 0; Key "close"]).
  reflexivity.
Defined.

(** * More properties of the stock endpoints *)

Lemma try_except_escapes_as_500 {S A : Type} (body : M S A)
  (detail : exn -> string) (s : S) :
  escapes_as_500
    (fst (try_except_Exception body
            (fun e => raise (HTTPException 500 (detail e))) s)) = true.
Proof.
  unfold try_except_Exception, raise.
  destruct (body s) as [[a | e] s']; simpl; [ reflexivity | ].
  destruct (is_Exception e) eqn:He; simpl; [ reflexivity | ].
  destruct e; simpl in *; try discriminate; reflexivity.
Qed.

Section MoreStockEndpointProperties.

Context {World DataFrame : Type}.
Variable collector :
  string -> string -> option string -> World ->
  outcome (option DataFrame) * World.
Variable analyzer : string -> string -> World -> outcome pyval * World.
Variable now_isoformat : World -> string.
Variable index_strftime : DataFrame -> string -> outcome DataFrame.
Variable where_notna_else_None : DataFrame -> outcome DataFrame.
Variable reset_index_to_dict_records : DataFrame -> outcome (list pyval).
Variable exc_str : exn -> string.

Local Abbreviation stock_data :=
  (get_stock_data collector now_isoformat index_strftime
     where_notna_else_None reset_index_to_dict_records exc_str).
Local Abbreviation stock_analysis :=
  (get_stock_analysis collector analyzer now_isoformat index_strftime
     where_notna_else_None reset_index_to_dict_records exc_str).
Local Abbreviation records :=
  (frame_to_records index_strftime where_notna_else_None
     reset_index_to_dict_records).

Ltac run_stock_handler :=
  unfold get_stock_data, get_stock_analysis, try_except_Exception, bind,
    collector_get_stock_data, analyzer_generate_insights,
    datetime_now_isoformat, lift, raise, ret;
  simpl.

(** X7: whatever the collaborators do, the two stock handlers either return
    or raise an [HTTPException] of status 500; no exception of class
    [Exception] leaves them with another status, the 404 of their own body
    included. *)
Theorem stock_endpoints_escape_as_500
  (request : StockRequest) (s : state World) :
  escapes_as_500 (fst (stock_data request s)) = true
  /\ escapes_as_500 (fst (stock_analysis request s)) = true.
Proof.
  split.
  - apply (try_except_escapes_as_500 _
             (fun e => ("Error fetching stock data: " ++ exc_str e)%string)).
  - apply (try_except_escapes_as_500 _
             (fun e => ("Error generating analysis: " ++ exc_str e)%string)).
Qed.

(** X8: the analysis handler calls the collector once, without an interval,
    and calls the analyzer after it exactly when the collector returned a
    frame: a symbol that is not found, or a collector that raises, costs no
    analysis. *)
Theorem analysis_calls (request : StockRequest) (s : state World) :
  calls (snd (stock_analysis request s))
  = calls s
    ++ GetStockData (symbol request) (period request) None
       :: match fst (collector (symbol request) (period request) None
                       (world s)) with
          | Returned (Some _) =>
              [GenerateInsights (symbol request) (period request)]
          | _ => []
          end.
Proof.
  run_stock_handler.
  destruct (collector (symbol request) (period request) None (world s))
    as [[[data | ] | e] w]; simpl.
  - destruct (analyzer (symbol request) (period request) w)
      as [[raw | e] w']; simpl.
    + destruct (records data) as [recs | e]; simpl;
        [ | destruct (is_Exception e) ]; simpl;
        now rewrite <- app_assoc.
    + destruct (is_Exception e); simpl; now rewrite <- app_assoc.
  - reflexivity.
  - destruct (is_Exception e); reflexivity.
Qed.

(** X9: the analysis handler returns exactly when the collector returns a
    frame, the analyzer returns a bundle and the frame converts to records;
    the body then holds the time of the call, the symbol, the sanitized
    records and the sanitized bundle. *)
Theorem analysis_returns_iff
  (request : StockRequest) (s : state World) (body : pyval) :
  fst (stock_analysis request s) = Returned body
  <-> exists data w raw w' recs,
        collector (symbol request) (period request) None (world s)
        = (Returned (Some data), w)
        /\ analyzer (symbol request) (period request) w = (Returned raw, w')
        /\ records data = Returned recs
        /\ body = PDict [("timestamp", PStr (now_isoformat w'));
                         ("symbol", PStr (symbol request));
                         ("data", PList (map convert_to_native_types recs));
                         ("insights", convert_to_native_types raw)].
Proof.
  split.
  - run_stock_handler.
    destruct (collector (symbol request) (period request) None (world s))
      as [[[data | ] | e] w] eqn:Hc; simpl.
    + destruct (analyzer (symbol request) (period request) w)
        as [[raw | e] w'] eqn:Ha; simpl.
      * destruct (records data) as [recs | e] eqn:Hr; simpl.
        -- intros H. inversion H; subst.
           exists data, w, raw, w', recs. repeat split; assumption.
        -- destruct (is_Exception e); discriminate.
      * destruct (is_Exception e); discriminate.
    + discriminate.
    + destruct (is_Exception e); discriminate.
  - intros [data [w [raw [w' [recs [Hc [Ha [Hr ->]]]]]]]].
    apply (analysis_returns collector analyzer now_isoformat index_strftime
             where_notna_else_None reset_index_to_dict_records exc_str
             request s data w w' raw recs Hc Ha Hr).
Qed.

(** X10: an [Exception] raised by the collector, by the analyzer or by the
    conversion of the frame ends the analysis with a 500 whose detail is
    "Error generating analysis: " followed by the text of that exception. *)
Theorem analysis_failure_detail
  (request : StockRequest) (s : state World) (e : exn) :
  is_Exception e = true ->
  (forall w,
      collector (symbol request) (period request) None (world s)
      = (Raised e, w) ->
      fst (stock_analysis request s)
      = Raised (HTTPException 500
                  ("Error generating analysis: " ++ exc_str e)))
  /\ (forall data w w',
         collector (symbol request) (period request) None (world s)
         = (Returned (Some data), w) ->
         analyzer (symbol request) (period request) w = (Raised e, w') ->
         fst (stock_analysis request s)
         = Raised (HTTPException 500
                     ("Error generating analysis: " ++ exc_str e)))
  /\ (forall data w raw w',
         collector (symbol request) (period request) None (world s)
         = (Returned (Some data), w) ->
         analyzer (symbol request) (period request) w = (Returned raw, w') ->
         records data = Raised e ->
         fst (stock_analysis request s)
         = Raised (HTTPException 500
                     ("Error generating analysis: " ++ exc_str e))).
Proof.
  intros He. repeat split.
  - intros w Hc. run_stock_handler. rewrite Hc. simpl. now rewrite He.
  - intros data w w' Hc Ha. run_stock_handler.
    rewrite Hc. simpl. rewrite Ha. simpl. now rewrite He.
  - intros data w raw w' Hc Ha Hr. run_stock_handler.
    rewrite Hc. simpl. rewrite Ha. simpl. rewrite Hr. simpl. now rewrite He.
Qed.

(** X11: for the same frame, the data handler returns the records as the
    pandas conversion produced them, and the analysis handler returns the
    same records passed through the sanitization. *)
Theorem analysis_data_is_sanitized_stock_data
  (request : StockRequest) (s : state World) (data : DataFrame)
  (w1 w2 w2' : World) (raw : pyval) (recs : list pyval) :
  collector (symbol request) (period request) (Some (interval request))
    (world s) = (Returned (Some data), w1) ->
  collector (symbol request) (period request) None (world s)
  = (Returned (Some data), w2) ->
  analyzer (symbol request) (period request) w2 = (Returned raw, w2') ->
  records data = Returned recs ->
  exists body1 body2,
    fst (stock_data request s) = Returned body1
    /\ fst (stock_analysis request s) = Returned body2
    /\ at_path [Key "data"] body1 = Some (PList recs)
    /\ at_path [Key "data"] body2
       = Some (PList (map convert_to_native_types recs)).
Proof.
  intros Hc1 Hc2 Ha Hr.
  do 2 eexists. split; [ | split ].
  - run_stock_handler. rewrite Hc1. simpl. rewrite Hr. reflexivity.
  - run_stock_handler. rewrite Hc2. simpl. rewrite Ha. simpl. rewrite Hr.
    reflexivity.
  - split; reflexivity.
Qed.

End MoreStockEndpointProperties.

(** * Properties of the other endpoints *)

Section OtherEndpointProperties.

Context {World DataFrame DateTime CryptoData Reply Message Html : Type}.
Variable collector :
  string -> string -> option string -> World ->
  outcome (option DataFrame) * World.
Variable analyzer : string -> string -> World -> outcome pyval * World.
Variable collector_crypto :
  string -> World -> outcome (option CryptoData) * World.
Variable chatbot_process_query :
  string -> string -> string -> World -> outcome Reply * World.
Variable chatbot_history : World -> outcome (list Message) * World.
Variable message_str : Message -> string.
Variable create_market_summary :
  pyval -> pyval -> World -> outcome Html * World.
Variable send_report :
  string -> string -> Html -> World -> outcome bool * World.
Variable schedule_report :
  string -> string -> string -> string -> World -> outcome unit * World.
Variable now : World -> DateTime.
Variable exc_str : exn -> string.

Local Abbreviation crypto_data :=
  (get_crypto_data collector_crypto now exc_str).
Local Abbreviation email_report :=
  (send_email_report collector analyzer create_market_summary send_report
     exc_str).

Ltac run_other_handler :=
  unfold get_crypto_data, send_email_report, try_except_Exception, bind,
    collector_get_stock_data, analyzer_generate_insights, on_world,
    datetime_now, raise, ret;
  simpl.

(** X12: when the crypto collector gives the not-found signal, the handler
    raises its 404 inside the [try] block and answers with a 500 that wraps
    the 404 message. *)
Theorem crypto_not_found_is_answered_with_500
  (sym : string) (s : state World) (w : World) :
  collector_crypto sym (world s) = (Returned None, w) ->
  fst (crypto_data sym s)
  = Raised (HTTPException 500
              ("Error fetching crypto data: "
               ++ exc_str (HTTPException 404
                             ("No data found for crypto symbol " ++ sym)))).
Proof.
  intros Hc. run_other_handler. rewrite Hc. reflexivity.
Qed.

(** X13: whatever the collaborators do, the crypto, query, history, email
    and schedule handlers either return, or raise an [HTTPException] of
    status 500, or let through an exception that is not an [Exception]
    (a [KeyboardInterrupt], say); the root handler returns. *)
Theorem other_endpoints_escape_as_500 (s : state World) :
  (exists body, fst (root (World := World) s) = Returned body)
  /\ (forall sym, escapes_as_500 (fst (crypto_data sym s)) = true)
  /\ (forall request,
        escapes_as_500
          (fst (process_query chatbot_process_query now exc_str request s))
        = true)
  /\ escapes_as_500
       (fst (get_conversation_history chatbot_history message_str now
               exc_str s)) = true
  /\ (forall request, escapes_as_500 (fst (email_report request s)) = true)
  /\ (forall request,
        escapes_as_500
          (fst (schedule_email_report schedule_report exc_str request s))
        = true).
Proof.
  split; [ eexists; reflexivity | ].
  split; [ intros sym | split; [ intros request | split;
    [ | split; intros request ] ] ].
  - apply (try_except_escapes_as_500 _
             (fun e => ("Error fetching crypto data: " ++ exc_str e)%string)).
  - apply (try_except_escapes_as_500 _
             (fun e => ("Error processing query: " ++ exc_str e)%string)).
  - apply (try_except_escapes_as_500 _
             (fun e => ("Error fetching conversation history: "
                        ++ exc_str e)%string)).
  - apply (try_except_escapes_as_500 _
             (fun e => ("Error generating report: " ++ exc_str e)%string)).
  - apply (try_except_escapes_as_500 _
             (fun e => ("Error scheduling report: " ++ exc_str e)%string)).
Qed.

(** X14: the email handler does not look at what the collector returned:
    whether it is a frame or the not-found signal, the analyzer is called,
    the summary is built from its bundle as it is, and when the report is
    sent the handler returns the success message. *)
Theorem email_report_is_sent_whatever_the_collector_returns
  (request : EmailReportRequest) (s : state World)
  (data : option DataFrame) (w1 w2 w3 w4 : World) (insights : pyval)
  (html : Html) :
  collector (email_symbol request) (email_period request) None (world s)
  = (Returned data, w1) ->
  analyzer (email_symbol request) (email_period request) w1
  = (Returned insights, w2) ->
  create_market_summary (PDict [("symbol", PStr (email_symbol request))])
    insights w2 = (Returned html, w3) ->
  send_report (email request)
    ("Market Analysis Report - " ++ email_symbol request) html w3
  = (Returned true, w4) ->
  email_report request s
  = (Returned (PDict [("status", PStr "success");
                      ("message", PStr ("Report sent to " ++ email request))]),
     {| world := w4;
        calls := calls s
                 ++ [GetStockData (email_symbol request)
                       (email_period request) None;
                     GenerateInsights (email_symbol request)
                       (email_period request)] |}).
Proof.
  intros Hc Ha Hm Hs. simpl in Hs. run_other_handler.
  rewrite Hc. simpl. rewrite Ha. simpl. rewrite Hm. simpl. rewrite Hs. simpl.
  now rewrite <- app_assoc.
Qed.

(** X15: when [send_report] reports a failure, the "Failed to send email
    report" exception of the body is caught by the handler's own
    [except Exception] and leaves wrapped in "Error generating report: ". *)
Theorem email_send_failure_is_wrapped
  (request : EmailReportRequest) (s : state World)
  (data : option DataFrame) (w1 w2 w3 w4 : World) (insights : pyval)
  (html : Html) :
  collector (email_symbol request) (email_period request) None (world s)
  = (Returned data, w1) ->
  analyzer (email_symbol request) (email_period request) w1
  = (Returned insights, w2) ->
  create_market_summary (PDict [("symbol", PStr (email_symbol request))])
    insights w2 = (Returned html, w3) ->
  send_report (email request)
    ("Market Analysis Report - " ++ email_symbol request) html w3
  = (Returned false, w4) ->
  fst (email_report request s)
  = Raised (HTTPException 500
              ("Error generating report: "
               ++ exc_str (HTTPException 500 "Failed to send email report"))).
Proof.
  intros Hc Ha Hm Hs. simpl in Hs. run_other_handler.
  rewrite Hc. simpl. rewrite Ha. simpl. rewrite Hm. simpl. rewrite Hs.
  reflexivity.
Qed.

(** X16: the email handler never reads the report type: two requests that
    agree on the recipient, the symbol and the period run alike. *)
Theorem email_report_ignores_report_type
  (r1 r2 : EmailReportRequest) (s : state World) :
  email r1 = email r2 -> email_symbol r1 = email_symbol r2 ->
  email_period r1 = email_period r2 ->
  email_report r1 s = email_report r2 s.
Proof.
  intros He Hs Hp. unfold send_email_report. now rewrite He, Hs, Hp.
Qed.

End OtherEndpointProperties.

(** * The other handlers on the small installation *)

Lemma analysis_failure_detail_witness :
  is_Exception (OtherException "connection timed out") = true
  /\ fst (get_stock_analysis demo_failing_collector demo_analyzer demo_now
            demo_strftime demo_where demo_records demo_str
            (demo_request "AAPL") (demo_state "2024-01-02T10:00:00"))
     = Raised (HTTPException 500
                 "Error generating analysis: connection timed out").
Proof.
  split; [ reflexivity | ].
  destruct (analysis_failure_detail
              demo_failing_collector demo_analyzer demo_now demo_strftime
              demo_where demo_records demo_str (demo_request "AAPL")
              (demo_state "2024-01-02T10:00:00")
              (OtherException "connection timed out") eq_refl)
    as [Hcollector _].
  apply (Hcollector "2024-01-02T10:00:00"). reflexivity.
Defined.

Lemma analysis_data_is_sanitized_stock_data_witness :
  let request := demo_request "AAPL" in
  let s := demo_state "2024-01-02T10:00:00" in
  exists body1 body2,
    fst (demo_get_stock_data request s) = Returned body1
    /\ fst (demo_get_stock_analysis request s) = Returned body2
    /\ at_path [Key "data"] body1 = Some (PList demo_frame)
    /\ at_path [Key "data"] body2
       = Some (PList (map convert_to_native_types demo_frame)).
Proof.
  intros request s.
  apply (analysis_data_is_sanitized_stock_data
           demo_collector demo_analyzer demo_now demo_strftime demo_where
           demo_records demo_str request s demo_frame
           (world s) (world s) (world s)
           (assemble "AAPL" "6mo" demo_indicators demo_series) demo_frame);
    reflexivity.
Defined.

Lemma crypto_not_found_is_answered_with_500_witness :
  let s := demo_state "2024-01-02T10:00:00" in
  demo_crypto "dogeusd" (world s) = (Returned None, world s)
  /\ fst (demo_get_crypto_data "dogeusd" s)
     = Raised (HTTPException 500
                 ("Error fetching crypto data: "
                  ++ "404: No data found for crypto symbol dogeusd")).
Proof.
  intros s. split; [ reflexivity | ].
  apply (crypto_not_found_is_answered_with_500
           demo_crypto demo_now demo_str "dogeusd" s (world s)).
  reflexivity.
Defined.

Lemma email_report_is_sent_whatever_the_collector_returns_witness :
  let request := demo_email_request "ana@example.com" "NOPE" "summary" in
  let s := demo_state "2024-01-02T10:00:00" in
  demo_collector "NOPE" "1d" None (world s) = (Returned None, world s)
  /\ demo_send_email_report request s
     = (Returned (PDict [("status", PStr "success");
                         ("message", PStr "Report sent to ana@example.com")]),
        {| world := world s;
           calls := [GetStockData "NOPE" "1d" None;
                     GenerateInsights "NOPE" "1d"] |}).
Proof.
  intros request s. split; [ reflexivity | ].
  apply (email_report_is_sent_whatever_the_collector_returns
           demo_collector demo_analyzer demo_summary demo_send demo_str
           request s None (world s) (world s) (world s) (world s)
           (assemble "NOPE" "1d" demo_indicators [])
           "<html>report</html>");
    reflexivity.
Defined.

Lemma email_send_failure_is_wrapped_witness :
  let request := demo_email_request "bounce@example.com" "AAPL" "summary" in
  let s := demo_state "2024-01-02T10:00:00" in
  fst (demo_send_email_report request s)
  = Raised (HTTPException 500
              "Error generating report: 500: Failed to send email report").
Proof.
  intros request s.
  apply (email_send_failure_is_wrapped
           demo_collector demo_analyzer demo_summary demo_send demo_str
           request s (Some demo_frame)
           (world s) (world s) (world s) (world s)
           (assemble "AAPL" "1d" demo_indicators demo_series)
           "<html>report</html>");
    reflexivity.
Defined.

Lemma email_report_ignores_report_type_witness :
  let s := demo_state "2024-01-02T10:00:00" in
  demo_send_email_report
    (demo_email_request "ana@example.com" "AAPL" "summary") s
  = demo_send_email_report
      (demo_email_request "ana@example.com" "AAPL" "detailed") s.
Proof.
  intros s.
  apply (email_report_ignores_report_type
           demo_collector demo_analyzer demo_summary demo_send demo_str);
    reflexivity.
Defined.
